(** * Whisper prompting guide: the notebook and its two wrapper functions

    A shallow embedding of [transcribe] and
    [fictitious_prompt_from_instruction] from
    [examples/Whisper_prompting_guide.ipynb].

    Both functions are glue around an external client: they build the
    keyword arguments of one client call, make the call, and project one
    field out of the answer.  The embedding keeps what the Python code has:

    - keyword arguments as an ordered association list of Python values
      (the dict and list literals of the source are kept as such);
    - the builtin [open] acting on a file system and on the table of open
      file objects;
    - the client calls as effects on a world that logs every request and
      hands it to an endpoint, which is a parameter of the development
      (the service is not part of the repository);
    - Python exceptions as the [Raised] outcome of a state-and-exception
      monad: an exception aborts the rest of the function body, and
      nothing in the two functions catches one. *)

From Stdlib Require Import ZArith List String Ascii Lia.
From stdpp Require Import gmap strings list.

Open Scope string_scope.
Open Scope list_scope.

(** ** Python values *)

(** A file object as returned by the builtin [open]: the path it was
    opened on and its mode.  Descriptor numbers and object identity are
    not modelled. *)
Record FileObject := mkFile { f_name : string; f_mode : string }.

#[warnings="-register-all"] Inductive pyval : Type :=
| PyNone
| PyInt (z : Z)
| PyStr (s : string)
| PyFile (f : FileObject)
| PyList (l : list pyval)
| PyDict (d : list (string * pyval)).

(** Keyword arguments of a call, in the order they are written. *)
Definition kwargs : Type := list (string * pyval).

Fixpoint kwarg (name : string) (kw : kwargs) : option pyval :=
  match kw with
  | [] => None
  | (k, v) :: rest => if String.eqb k name then Some v else kwarg name rest
  end.

(** ** Exceptions *)

Record exn := Exn { exn_class : string; exn_msg : string }.

Definition FileNotFoundError (path : string) : exn :=
  Exn "FileNotFoundError" path.
Definition IsADirectoryError (path : string) : exn :=
  Exn "IsADirectoryError" path.
Definition PermissionError (path : string) : exn :=
  Exn "PermissionError" path.
Definition ValueError (msg : string) : exn := Exn "ValueError" msg.
Definition IndexError : exn := Exn "IndexError" "list index out of range".
Definition NameError (name : string) : exn := Exn "NameError" name.
Definition TypeError (msg : string) : exn := Exn "TypeError" msg.

Inductive outcome (A : Type) : Type :=
| Returned (a : A)
| Raised (e : exn).
Arguments Returned {A} a.
Arguments Raised {A} e.

Definition raised {A : Type} (o : outcome A) : option exn :=
  match o with
  | Returned _ => None
  | Raised e => Some e
  end.

(** ** Objects returned by the client *)

Record Transcription := mkTranscription {
  text : string;
  language : string
}.

Record ChatCompletionMessage := mkMessage {
  role : string;
  content : string
}.

Record Choice := mkChoice {
  index : Z;
  message : ChatCompletionMessage;
  finish_reason : string
}.

Record ChatCompletion := mkCompletion {
  completion_id : string;
  choices : list Choice
}.

(** ** The world *)

Inductive inode : Type :=
| RegularFile (readable writable : bool) (data : list Byte.byte)
| Directory.

(** A request handed to the client, with the keyword arguments it was
    called with. *)
Inductive Request : Type :=
| TranscriptionsCreate (kw : kwargs)
| ChatCompletionsCreate (kw : kwargs).

Definition request_kwargs (r : Request) : kwargs :=
  match r with
  | TranscriptionsCreate kw => kw
  | ChatCompletionsCreate kw => kw
  end.

(** The notebook calls the functions as [transcribe(path, prompt=...)] and
    [fictitious_prompt_from_instruction(...)], one cell after the other. *)
Inductive Call : Type :=
| CallTranscribe (audio_filepath prompt : string)
| CallFictitious (instruction : string).

(** The state a call runs in.  [S] is the state of the external service
    (network, credentials, the remote models).

    [open_files] lists the file objects the code has opened and has not
    closed itself.  The two functions close nothing, so while their
    bodies run the table only grows; what the runtime does with a file
    object nobody refers to any more is the matter of [py_call] below. *)
Record World (S : Type) := mkWorld {
  fs : gmap string inode;          (* files on disk *)
  open_files : list FileObject;    (* file objects opened and not closed *)
  globals : gmap string pyval;     (* the notebook's namespace *)
  calls : list Request;            (* requests handed to the client so far *)
  ext : S                          (* state of the external service *)
}.
Arguments mkWorld {S} _ _ _ _ _.
Arguments fs {S} _.
Arguments open_files {S} _.
Arguments globals {S} _.
Arguments calls {S} _.
Arguments ext {S} _.

(** ** Concrete services and worlds

    Small stand-ins for the remote service, used to run the functions on
    concrete inputs.  Their state counts the requests served. *)
Module Demo.

Definition up_first_filepath : string := "data/upfirstpodcastchunkthree.wav".

Definition transcriptions (kw : kwargs) (files : gmap string inode) (served : nat)
  : outcome Transcription * nat :=
  (Returned (mkTranscription "Hi there and welcome to the show." "english"),
   Datatypes.S served).

Definition chat_one_choice (kw : kwargs) (served : nat)
  : outcome ChatCompletion * nat :=
  (Returned
     (mkCompletion "chatcmpl-1"
        [mkChoice 0 (mkMessage "assistant" "Remember that trip to Maine...") "stop"]),
   Datatypes.S served).

(** A completion whose list of choices is empty. *)
Definition chat_no_choices (kw : kwargs) (served : nat)
  : outcome ChatCompletion * nat :=
  (Returned (mkCompletion "chatcmpl-2" []), Datatypes.S served).

(** A service that cannot be reached. *)
Definition transcriptions_unreachable
    (kw : kwargs) (files : gmap string inode) (served : nat)
  : outcome Transcription * nat :=
  (Raised (Exn "APIConnectionError" "Connection error."), served).

Definition chat_unreachable (kw : kwargs) (served : nat)
  : outcome ChatCompletion * nat :=
  (Raised (Exn "APIConnectionError" "Connection error."), served).

Definition disk : gmap string inode :=
  {[ up_first_filepath := RegularFile true true [Byte.x52; Byte.x49; Byte.x46; Byte.x46] ]}.

(** A fresh notebook: the audio file is on disk, nothing is open, no
    request has been made. *)
Definition w0 : World nat := mkWorld disk [] ∅ [] 0.

(** What the three download addresses of the notebook serve. *)
Definition web : gmap string (list Byte.byte) :=
  {[ "https://cdn.openai.com/API/examples/data/upfirstpodcastchunkthree.wav"
       := [Byte.x52; Byte.x49; Byte.x46; Byte.x46];
     "https://cdn.openai.com/API/examples/data/bbq_plans.wav"
       := [Byte.x52; Byte.x49; Byte.x46; Byte.x46; Byte.x01];
     "https://cdn.openai.com/API/examples/data/product_names.wav"
       := [Byte.x52; Byte.x49; Byte.x46; Byte.x46; Byte.x02] ]}.

(** A stand-in for [urllib.request.urlretrieve]: an address that is not
    served is an error; otherwise the body is saved under the file name,
    as a new file or over a file that can be read and written. *)
Definition urlretrieve (url filename : pyval) (w : World nat)
  : outcome (string * list (string * string)) * World nat :=
  match url, filename with
  | PyStr address, PyStr path =>
      match web !! address with
      | None => (Raised (Exn "HTTPError" "HTTP Error 404: Not Found"), w)
      | Some body =>
          let saved :=
            mkWorld (<[path := RegularFile true true body]> (fs w))
                    (open_files w) (globals w) (calls w) (ext w) in
          match fs w !! path with
          | None => (Returned (path, []), saved)
          | Some (RegularFile true true _) => (Returned (path, []), saved)
          | Some (RegularFile _ _ _) => (Raised (PermissionError path), w)
          | Some Directory => (Raised (IsADirectoryError path), w)
          end
      end
  | _, _ => (Raised (TypeError "expected str"), w)
  end.

(** A new kernel on an empty working directory. *)
Definition fresh : World nat := mkWorld ∅ [] ∅ [] 0.

(** A world that differs from [w0] in everything a call should not look
    at: an open file, a bound name, a request already made. *)
(** A working directory where the first download cannot be saved: its
    file name is taken by a directory. *)
Definition blocked : World nat :=
  mkWorld {[ up_first_filepath := Directory ]} [] ∅ [] 0.

Definition w0_used : World nat :=
  mkWorld disk [mkFile up_first_filepath "rb"]
          {[ "prompt" := PyStr "president biden." ]}
          [ChatCompletionsCreate []] 0.

End Demo.

Section Whisper.

(** The service behind [client]: its state and its two endpoints.  The
    notebook binds [client] once, at its top, and the two functions only
    read it.  The transcription endpoint reads the uploaded stream through
    the file system. *)
Context {S : Type}.
Context (transcriptions_endpoint :
           kwargs -> gmap string inode -> S -> outcome Transcription * S).
Context (chat_endpoint : kwargs -> S -> outcome ChatCompletion * S).

(** ** State-and-exception monad *)

Definition M (A : Type) : Type := World S -> outcome A * World S.

Definition ret {A : Type} (a : A) : M A := fun w => (Returned a, w).

Definition bind {A B : Type} (m : M A) (k : A -> M B) : M B :=
  fun w =>
    match m w with
    | (Returned a, w') => k a w'
    | (Raised e, w') => (Raised e, w')
    end.

#[local] Instance M_ret : MRet M := @ret.
#[local] Instance M_bind : MBind M := fun A B k m => bind m k.

(** ** Builtins and client calls *)

Definition read_mode (mode : string) : bool :=
  String.eqb mode "r" || String.eqb mode "rb".

Definition write_mode (mode : string) : bool :=
  String.eqb mode "w" || String.eqb mode "wb".

(** The builtin [open(path, mode)].  Reading needs a readable regular
    file; writing creates the file or truncates it.  A successful open
    enters the new file object in the table of open files.

    Three ways of failing are told apart, by the entry under the path.
    The other errors of [open] (a path that runs through a regular file,
    a NUL byte in the path, a name that is too long) are not: they come
    out as one of the three.  The statements below rely on whether [open]
    fails and on its error being passed on, not on its class. *)
Definition py_open (path mode : string) : M FileObject := fun w =>
  let f := mkFile path mode in
  let opened := mkWorld (fs w) (open_files w ++ [f]) (globals w) (calls w) (ext w) in
  if read_mode mode then
    match fs w !! path with
    | None => (Raised (FileNotFoundError path), w)
    | Some Directory => (Raised (IsADirectoryError path), w)
    | Some (RegularFile false _ _) => (Raised (PermissionError path), w)
    | Some (RegularFile true _ _) => (Returned f, opened)
    end
  else if write_mode mode then
    match fs w !! path with
    | Some Directory => (Raised (IsADirectoryError path), w)
    | Some (RegularFile _ false _) => (Raised (PermissionError path), w)
    | Some (RegularFile r true _) =>
        (Returned f,
         mkWorld (<[path := RegularFile r true []]> (fs w))
                 (open_files w ++ [f]) (globals w) (calls w) (ext w))
    | None =>
        (Returned f,
         mkWorld (<[path := RegularFile true true []]> (fs w))
                 (open_files w ++ [f]) (globals w) (calls w) (ext w))
    end
  else (Raised (ValueError mode), w).

(** [client.audio.transcriptions.create]: the request is logged and
    answered by the endpoint. *)
Definition client_audio_transcriptions_create (kw : kwargs) : M Transcription :=
  fun w =>
    let '(r, s') := transcriptions_endpoint kw (fs w) (ext w) in
    (r, mkWorld (fs w) (open_files w) (globals w)
                (calls w ++ [TranscriptionsCreate kw]) s').

(** [client.chat.completions.create]. *)
Definition client_chat_completions_create (kw : kwargs) : M ChatCompletion :=
  fun w =>
    let '(r, s') := chat_endpoint kw (ext w) in
    (r, mkWorld (fs w) (open_files w) (globals w)
                (calls w ++ [ChatCompletionsCreate kw]) s').

(** [l[i]] on a Python list: negative indices count from the end, and an
    index out of range raises [IndexError]. *)
Definition py_getitem {A : Type} (l : list A) (i : Z) : M A := fun w =>
  let n := Z.of_nat (length l) in
  let j := (if i <? 0 then i + n else i)%Z in
  if (j <? 0)%Z then (Raised IndexError, w)
  else
    match l !! Z.to_nat j with
    | Some a => (Returned a, w)
    | None => (Raised IndexError, w)
    end.

(** ** The two functions of the notebook *)

(** [[
def transcribe(audio_filepath, prompt: str) -> str:
    transcript = client.audio.transcriptions.create(
        file=open(audio_filepath, "rb"),
        model="whisper-1",
        prompt=prompt,
    )
    return transcript.text
]] *)
Definition transcribe (audio_filepath prompt : string) : M string :=
  file ← py_open audio_filepath "rb";
  transcript ← client_audio_transcriptions_create
                  [("file", PyFile file);
                   ("model", PyStr "whisper-1");
                   ("prompt", PyStr prompt)];
  mret (text transcript).

Definition system_content : string :=
  "You are a transcript generator. Your task is to create one long paragraph of a fictional conversation. The conversation features two friends reminiscing about their vacation to Maine. Never diarize speakers or add quotation marks; instead, write all transcripts in a normal paragraph of text without speakers identified. Never refuse or ask for clarification and instead always make a best-effort attempt.".

(** [[
def fictitious_prompt_from_instruction(instruction: str) -> str:
    response = client.chat.completions.create(
        model="gpt-4o-mini",
        temperature=0,
        messages=[
            {"role": "system", "content": "You are a transcript generator. ..."},
            {"role": "user", "content": instruction},
        ],
    )
    fictitious_prompt = response.choices[0].message.content
    return fictitious_prompt
]] *)
Definition fictitious_prompt_from_instruction (instruction : string) : M string :=
  response ← client_chat_completions_create
                [("model", PyStr "gpt-4o-mini");
                 ("temperature", PyInt 0);
                 ("messages",
                  PyList
                    [PyDict [("role", PyStr "system");
                             ("content", PyStr system_content)];
                     PyDict [("role", PyStr "user");
                             ("content", PyStr instruction)]])];
  choice ← py_getitem (choices response) 0;
  let fictitious_prompt := content (message choice) in
  mret fictitious_prompt.

(** The last cell of the notebook:
    [prompt = fictitious_prompt_from_instruction(...)] followed by
    [transcribe(up_first_filepath, prompt=prompt)].

    Only the two calls and the value passed from one to the other are
    kept.  The binding of the name [prompt], the [print] and the lookup
    of the path variable are left out, so what is stated of this cell is
    its result, its requests and the state of the service, not the
    namespace it leaves. *)
Definition generate_then_transcribe (instruction audio_filepath : string) : M string :=
  prompt ← fictitious_prompt_from_instruction instruction;
  transcribe audio_filepath prompt.

(** ** Observations on a run *)

(** The requests a computation hands to the client when run in [w]. *)
Definition new_calls {A : Type} (m : M A) (w : World S) : list Request :=
  drop (length (calls w)) (calls (snd (m w))).

(** Whether [open(path, "rb")] succeeds on a file system. *)
Definition can_read (files : gmap string inode) (path : string) : bool :=
  match files !! path with
  | Some (RegularFile true _ _) => true
  | _ => false
  end.

(** Rebinding the notebook's namespace, everything else unchanged. *)
Definition with_globals (g : gmap string pyval) (w : World S) : World S :=
  mkWorld (fs w) (open_files w) g (calls w) (ext w).

Definition run_call (c : Call) : M string :=
  match c with
  | CallTranscribe audio_filepath prompt => transcribe audio_filepath prompt
  | CallFictitious instruction => fictitious_prompt_from_instruction instruction
  end.

(** Cells run one after the other; an exception in one cell does not stop
    the user from running the next. *)
Fixpoint run_calls (cs : list Call) (w : World S) : World S :=
  match cs with
  | [] => w
  | c :: rest => run_calls rest (snd (run_call c w))
  end.

(** ** The end of a call

    CPython counts references and closes a file object as soon as nothing
    refers to it.  The file object [transcribe] opens is a temporary:
    it is bound to no name and it is not returned, the call of [create]
    being the only holder.

    - When the call returns, nothing refers to the file objects its body
      opened, and they are closed: the table of open files is cut back to
      the table of the caller.
    - When the call raises, the traceback of the error holds the frames
      the error went through, the frame of [create] with its argument
      [file] among them, so the file objects stay open for as long as the
      error is kept (the notebook's kernel keeps the traceback of the
      last uncaught error).

    This is for calls that bind no global name and answer with a string,
    as the two functions do. *)
Definition py_call (m : M string) : M string := fun w =>
  match m w with
  | (Returned result, w') =>
      (Returned result,
       mkWorld (fs w') (take (length (open_files w)) (open_files w'))
               (globals w') (calls w') (ext w'))
  | (Raised e, w') => (Raised e, w')
  end.

(** ** The cells around the two functions

    The names bound by the import cell and by the two [def] cells
    ([urllib], [client], the functions themselves) are taken as bound. *)

(** [urllib.request.urlretrieve(url, filename)], a function of the
    standard library: it answers with the file name and the headers of
    the response. *)
Context (urlretrieve : pyval -> pyval -> M (string * list (string * string))).

(** [name = value] at the top level of a cell. *)
Definition set_global (name : string) (value : pyval) : M unit := fun w =>
  (Returned tt, with_globals (<[name := value]> (globals w)) w).

(** Reading a top-level name; an unbound name raises [NameError]. *)
Definition get_global (name : string) : M pyval := fun w =>
  match globals w !! name with
  | Some value => (Returned value, w)
  | None => (Raised (NameError name), w)
  end.

(** [[
up_first_remote_filepath = "https://cdn.openai.com/API/examples/data/upfirstpodcastchunkthree.wav"
bbq_plans_remote_filepath = "https://cdn.openai.com/API/examples/data/bbq_plans.wav"
product_names_remote_filepath = "https://cdn.openai.com/API/examples/data/product_names.wav"

up_first_filepath = "data/upfirstpodcastchunkthree.wav"
bbq_plans_filepath = "data/bbq_plans.wav"
product_names_filepath = "data/product_names.wav"

urllib.request.urlretrieve(up_first_remote_filepath, up_first_filepath)
urllib.request.urlretrieve(bbq_plans_remote_filepath, bbq_plans_filepath)
urllib.request.urlretrieve(product_names_remote_filepath, product_names_filepath)
]] *)
Definition cell_download : M (string * list (string * string)) :=
  set_global "up_first_remote_filepath"
    (PyStr "https://cdn.openai.com/API/examples/data/upfirstpodcastchunkthree.wav");;
  set_global "bbq_plans_remote_filepath"
    (PyStr "https://cdn.openai.com/API/examples/data/bbq_plans.wav");;
  set_global "product_names_remote_filepath"
    (PyStr "https://cdn.openai.com/API/examples/data/product_names.wav");;
  set_global "up_first_filepath" (PyStr "data/upfirstpodcastchunkthree.wav");;
  set_global "bbq_plans_filepath" (PyStr "data/bbq_plans.wav");;
  set_global "product_names_filepath" (PyStr "data/product_names.wav");;
  url ← get_global "up_first_remote_filepath";
  filename ← get_global "up_first_filepath";
  urlretrieve url filename;;
  url ← get_global "bbq_plans_remote_filepath";
  filename ← get_global "bbq_plans_filepath";
  urlretrieve url filename;;
  url ← get_global "product_names_remote_filepath";
  filename ← get_global "product_names_filepath";
  urlretrieve url filename.

(** The namespace once the six assignments of the download cell are done. *)
Definition download_names (g : gmap string pyval) : gmap string pyval :=
  <["product_names_filepath" := PyStr "data/product_names.wav"]>
  (<["bbq_plans_filepath" := PyStr "data/bbq_plans.wav"]>
  (<["up_first_filepath" := PyStr "data/upfirstpodcastchunkthree.wav"]>
  (<["product_names_remote_filepath" :=
       PyStr "https://cdn.openai.com/API/examples/data/product_names.wav"]>
  (<["bbq_plans_remote_filepath" :=
       PyStr "https://cdn.openai.com/API/examples/data/bbq_plans.wav"]>
  (<["up_first_remote_filepath" :=
       PyStr "https://cdn.openai.com/API/examples/data/upfirstpodcastchunkthree.wav"]>
   g))))).

Definition raise {A : Type} (e : exn) : M A := fun w => (Raised e, w).

(** A transcription cell, [transcribe(name, prompt="...")], where [name]
    is one of the path variables of the download cell.  Only strings are
    paths here: an integer would name a descriptor, which the world does
    not have. *)
Definition cell_transcribe (name prompt : string) : M string :=
  audio_filepath ← get_global name;
  match audio_filepath return M string with
  | PyStr path => transcribe path prompt
  | _ => raise (TypeError "expected str, bytes or os.PathLike object")
  end.

(** * Properties *)

Implicit Types (w : World S) (audio_filepath prompt instruction : string).

(** ** What each operation does to the world *)

Lemma new_calls_app {A : Type} (m : M A) w (l : list Request) :
  calls (snd (m w)) = calls w ++ l -> new_calls m w = l.
Proof.
  intros H. unfold new_calls. rewrite H. apply drop_app_length.
Qed.

Lemma py_open_rb_readable audio_filepath w :
  can_read (fs w) audio_filepath = true ->
  py_open audio_filepath "rb" w =
    (Returned (mkFile audio_filepath "rb"),
     mkWorld (fs w) (open_files w ++ [mkFile audio_filepath "rb"])
             (globals w) (calls w) (ext w)).
Proof.
  unfold can_read, py_open. cbn.
  destruct (fs w !! audio_filepath) as [[[] ? ?|]|]; intros H;
    first [discriminate H | reflexivity].
Qed.

Lemma py_open_rb_unreadable audio_filepath w :
  can_read (fs w) audio_filepath = false ->
  exists e, py_open audio_filepath "rb" w = (Raised e, w).
Proof.
  unfold can_read, py_open. cbn.
  destruct (fs w !! audio_filepath) as [[[] ? ?|]|]; intros H;
    first [discriminate H | eexists; reflexivity].
Qed.

(** A run of [transcribe] on a readable file: one request, the file
    object left in the table of open files. *)
Lemma transcribe_readable audio_filepath prompt w :
  can_read (fs w) audio_filepath = true ->
  let kw := [("file", PyFile (mkFile audio_filepath "rb"));
             ("model", PyStr "whisper-1");
             ("prompt", PyStr prompt)] in
  let answer := transcriptions_endpoint kw (fs w) (ext w) in
  transcribe audio_filepath prompt w =
    (match fst answer with
     | Returned transcript => Returned (text transcript)
     | Raised e => Raised e
     end,
     mkWorld (fs w) (open_files w ++ [mkFile audio_filepath "rb"])
             (globals w) (calls w ++ [TranscriptionsCreate kw]) (snd answer)).
Proof.
  intros Hr kw answer. unfold transcribe.
  unfold mbind, M_bind, bind. rewrite (py_open_rb_readable _ _ Hr).
  unfold client_audio_transcriptions_create. cbn [fs ext open_files globals calls].
  subst answer kw. destruct (transcriptions_endpoint _ _ _) as [[t|e] s']; reflexivity.
Qed.

(** A run of [transcribe] on a path that cannot be opened: the error of
    [open] comes out and the world is as before. *)
Lemma transcribe_unreadable audio_filepath prompt w :
  can_read (fs w) audio_filepath = false ->
  exists e, py_open audio_filepath "rb" w = (Raised e, w) /\
            transcribe audio_filepath prompt w = (Raised e, w).
Proof.
  intros Hr. destruct (py_open_rb_unreadable _ _ Hr) as [e He].
  exists e. split; [exact He|].
  unfold transcribe, mbind, M_bind, bind. rewrite He. reflexivity.
Qed.

Lemma py_getitem_0 {A : Type} (l : list A) w :
  py_getitem l 0 w =
    (match l with [] => Raised IndexError | a :: _ => Returned a end, w).
Proof. destruct l; reflexivity. Qed.

(** A run of [fictitious_prompt_from_instruction]. *)
Lemma fictitious_run instruction w :
  let kw := [("model", PyStr "gpt-4o-mini");
             ("temperature", PyInt 0);
             ("messages",
              PyList
                [PyDict [("role", PyStr "system");
                         ("content", PyStr system_content)];
                 PyDict [("role", PyStr "user");
                         ("content", PyStr instruction)]])] in
  let answer := chat_endpoint kw (ext w) in
  fictitious_prompt_from_instruction instruction w =
    (match fst answer with
     | Returned response =>
         match choices response with
         | [] => Raised IndexError
         | choice :: _ => Returned (content (message choice))
         end
     | Raised e => Raised e
     end,
     mkWorld (fs w) (open_files w) (globals w)
             (calls w ++ [ChatCompletionsCreate kw]) (snd answer)).
Proof.
  intros kw answer. unfold fictitious_prompt_from_instruction.
  unfold mbind, M_bind, bind, client_chat_completions_create.
  fold kw. fold answer. destruct answer as [[r|e] s']; [|reflexivity].
  rewrite py_getitem_0. cbn. destruct (choices r); reflexivity.
Qed.

(** Rewriting with one of the run lemmas above. *)
Ltac rewrite_run lem :=
  let H := fresh "Hrun" in
  pose proof lem as H; cbv zeta in H; rewrite H; clear H.

(** ** Request construction *)

(** C1. For every audio path and every prompt string, whatever its length
    or content, the prompt reaches the transcription service exactly as
    given: whenever the file opens, the one request that is made carries
    the caller's string under [prompt]; nothing in [transcribe] checks,
    shortens or rewrites it, and the prompt never decides whether the
    request is made. *)
Theorem transcribe_forwards_prompt_unchanged audio_filepath prompt w :
  map (fun r => kwarg "prompt" (request_kwargs r))
      (new_calls (transcribe audio_filepath prompt) w)
  = if can_read (fs w) audio_filepath then [Some (PyStr prompt)] else [].
Proof.
  destruct (can_read (fs w) audio_filepath) eqn:Hr.
  - rewrite (new_calls_app _ _ [TranscriptionsCreate
        [("file", PyFile (mkFile audio_filepath "rb"));
         ("model", PyStr "whisper-1"); ("prompt", PyStr prompt)]]).
    + reflexivity.
    + rewrite_run (transcribe_readable _ prompt _ Hr). reflexivity.
  - destruct (transcribe_unreadable _ prompt _ Hr) as (e & _ & Hrun).
    rewrite (new_calls_app _ _ []); [reflexivity|].
    rewrite Hrun. cbn. by rewrite app_nil_r.
Qed.

(** C2. When the file opens and the service answers with a transcription
    object, [transcribe] returns the [text] field of that object and
    nothing else. *)
Theorem transcribe_returns_response_text
    audio_filepath prompt w (transcript : Transcription) (s' : S) :
  can_read (fs w) audio_filepath = true ->
  transcriptions_endpoint
    [("file", PyFile (mkFile audio_filepath "rb"));
     ("model", PyStr "whisper-1");
     ("prompt", PyStr prompt)] (fs w) (ext w) = (Returned transcript, s') ->
  fst (transcribe audio_filepath prompt w) = Returned (text transcript).
Proof.
  intros Hr Hanswer. rewrite_run (transcribe_readable _ prompt _ Hr). cbn.
  by rewrite Hanswer.
Qed.

(** C3. The request built by [transcribe] has exactly the three keyword
    arguments [file], [model] and [prompt]: the file object opened on the
    given path in mode [rb] (the one this call entered in the table of
    open files), the constant [whisper-1], and the given prompt.  When
    the file cannot be opened no request is built. *)
Theorem transcribe_request_parameters audio_filepath prompt w :
  new_calls (transcribe audio_filepath prompt) w
  = (if can_read (fs w) audio_filepath
     then [TranscriptionsCreate
             [("file", PyFile (mkFile audio_filepath "rb"));
              ("model", PyStr "whisper-1");
              ("prompt", PyStr prompt)]]
     else [])
  /\ open_files (snd (transcribe audio_filepath prompt w))
     = open_files w ++
       (if can_read (fs w) audio_filepath
        then [mkFile audio_filepath "rb"] else []).
Proof.
  destruct (can_read (fs w) audio_filepath) eqn:Hr.
  - split.
    + apply new_calls_app.
      rewrite_run (transcribe_readable _ prompt _ Hr). reflexivity.
    + rewrite_run (transcribe_readable _ prompt _ Hr). reflexivity.
  - destruct (transcribe_unreadable _ prompt _ Hr) as (e & _ & Hrun).
    split.
    + apply new_calls_app. rewrite Hrun. cbn. by rewrite app_nil_r.
    + rewrite Hrun. cbn. by rewrite app_nil_r.
Qed.

(** C4. For every instruction, [fictitious_prompt_from_instruction] makes
    one chat-completion request with the model [gpt-4o-mini], temperature
    0, and two messages in this order: the system message with the fixed
    content [system_content], then the user message whose content is the
    instruction.  The instruction occurs nowhere else in the request. *)
Theorem fictitious_prompt_request instruction w :
  new_calls (fictitious_prompt_from_instruction instruction) w
  = [ChatCompletionsCreate
       [("model", PyStr "gpt-4o-mini");
        ("temperature", PyInt 0);
        ("messages",
         PyList
           [PyDict [("role", PyStr "system");
                    ("content", PyStr system_content)];
            PyDict [("role", PyStr "user");
                    ("content", PyStr instruction)]])]].
Proof.
  apply new_calls_app. rewrite_run (fictitious_run instruction w). reflexivity.
Qed.

(** ** Results and errors *)

(** The log after [transcribe]: the old log, then the request if the file
    opened. *)
Lemma transcribe_calls audio_filepath prompt w :
  calls (snd (transcribe audio_filepath prompt w))
  = calls w ++
    (if can_read (fs w) audio_filepath
     then [TranscriptionsCreate
             [("file", PyFile (mkFile audio_filepath "rb"));
              ("model", PyStr "whisper-1");
              ("prompt", PyStr prompt)]]
     else []).
Proof.
  destruct (can_read (fs w) audio_filepath) eqn:Hr.
  - rewrite_run (transcribe_readable _ prompt _ Hr). reflexivity.
  - destruct (transcribe_unreadable _ prompt _ Hr) as (e & _ & Hrun).
    rewrite Hrun. cbn. by rewrite app_nil_r.
Qed.

(** C5, as amended. An error of [open] or of the client call reaches the
    caller as it was raised, and neither function raises anything else,
    with one exception: [fictitious_prompt_from_instruction] raises
    [IndexError] when the call succeeded and the completion has no
    choices.  Each function makes at most one request, so nothing is
    retried. *)
Theorem errors_propagate_unmodified audio_filepath prompt instruction w :
  raised (fst (transcribe audio_filepath prompt w))
  = match py_open audio_filepath "rb" w with
    | (Raised e, _) => Some e
    | (Returned file, w1) =>
        raised (fst (client_audio_transcriptions_create
                       [("file", PyFile file);
                        ("model", PyStr "whisper-1");
                        ("prompt", PyStr prompt)] w1))
    end
  /\ raised (fst (fictitious_prompt_from_instruction instruction w))
     = match fst (client_chat_completions_create
                    [("model", PyStr "gpt-4o-mini");
                     ("temperature", PyInt 0);
                     ("messages",
                      PyList
                        [PyDict [("role", PyStr "system");
                                 ("content", PyStr system_content)];
                         PyDict [("role", PyStr "user");
                                 ("content", PyStr instruction)]])] w) with
       | Raised e => Some e
       | Returned response =>
           match choices response with
           | [] => Some IndexError
           | _ :: _ => None
           end
       end
  /\ length (new_calls (transcribe audio_filepath prompt) w) <= 1
  /\ length (new_calls (fictitious_prompt_from_instruction instruction) w) = 1.
Proof.
  repeat split.
  - unfold transcribe, mbind, M_bind, bind.
    destruct (py_open audio_filepath "rb" w) as [[file|e] w1]; [|reflexivity].
    destruct (client_audio_transcriptions_create _ w1) as [[t|e] w2];
      reflexivity.
  - rewrite_run (fictitious_run instruction w).
    unfold client_chat_completions_create.
    destruct (chat_endpoint _ (ext w)) as [[response|e] s']; [|reflexivity].
    cbn. destruct (choices response); reflexivity.
  - rewrite (new_calls_app _ _ _ (transcribe_calls audio_filepath prompt w)).
    destruct (can_read (fs w) audio_filepath); cbn; lia.
  - rewrite (new_calls_app _ w
               [ChatCompletionsCreate
                  [("model", PyStr "gpt-4o-mini");
                   ("temperature", PyInt 0);
                   ("messages",
                    PyList
                      [PyDict [("role", PyStr "system");
                               ("content", PyStr system_content)];
                       PyDict [("role", PyStr "user");
                               ("content", PyStr instruction)]])]]).
    + reflexivity.
    + rewrite_run (fictitious_run instruction w). reflexivity.
Qed.

(** C8. When the chat-completion call succeeds with a completion that has
    a first choice, [fictitious_prompt_from_instruction] returns the
    content of that choice's message as it is; and in the notebook's
    two-step use, that very string is the prompt of the transcription
    request that follows. *)
Theorem fictitious_prompt_returns_first_choice_content
    instruction w (response : ChatCompletion) (choice : Choice)
    (rest : list Choice) (s' : S) :
  chat_endpoint
    [("model", PyStr "gpt-4o-mini");
     ("temperature", PyInt 0);
     ("messages",
      PyList
        [PyDict [("role", PyStr "system");
                 ("content", PyStr system_content)];
         PyDict [("role", PyStr "user");
                 ("content", PyStr instruction)]])] (ext w)
  = (Returned response, s') ->
  choices response = choice :: rest ->
  fst (fictitious_prompt_from_instruction instruction w)
  = Returned (content (message choice))
  /\ forall audio_filepath,
      new_calls (generate_then_transcribe instruction audio_filepath) w
      = ChatCompletionsCreate
          [("model", PyStr "gpt-4o-mini");
           ("temperature", PyInt 0);
           ("messages",
            PyList
              [PyDict [("role", PyStr "system");
                       ("content", PyStr system_content)];
               PyDict [("role", PyStr "user");
                       ("content", PyStr instruction)]])]
        :: (if can_read (fs w) audio_filepath
            then [TranscriptionsCreate
                    [("file", PyFile (mkFile audio_filepath "rb"));
                     ("model", PyStr "whisper-1");
                     ("prompt", PyStr (content (message choice)))]]
            else []).
Proof.
  intros Hanswer Hchoices.
  pose proof (fictitious_run instruction w) as Hrun. cbv zeta in Hrun.
  rewrite Hanswer in Hrun. cbn [fst snd] in Hrun. rewrite Hchoices in Hrun.
  split; [by rewrite Hrun|].
  intros audio_filepath. unfold new_calls, generate_then_transcribe.
  unfold mbind at 1. unfold M_bind at 1. unfold bind at 1.
  rewrite Hrun, transcribe_calls. cbn [calls fs].
  rewrite <- app_assoc, drop_app_length. reflexivity.
Qed.

(** C10. The first choice is taken without a guard: after a successful
    call, a completion with at least one choice makes the function
    return, and a completion with no choices makes it raise
    [IndexError] instead of returning. *)
Theorem first_choice_indexing_unguarded
    instruction w (response : ChatCompletion) (s' : S) :
  chat_endpoint
    [("model", PyStr "gpt-4o-mini");
     ("temperature", PyInt 0);
     ("messages",
      PyList
        [PyDict [("role", PyStr "system");
                 ("content", PyStr system_content)];
         PyDict [("role", PyStr "user");
                 ("content", PyStr instruction)]])] (ext w)
  = (Returned response, s') ->
  (choices response <> [] ->
   exists fictitious_prompt,
     fst (fictitious_prompt_from_instruction instruction w)
     = Returned fictitious_prompt)
  /\ (choices response = [] ->
      fst (fictitious_prompt_from_instruction instruction w)
      = Raised IndexError).
Proof.
  intros Hanswer.
  pose proof (fictitious_run instruction w) as Hrun. cbv zeta in Hrun.
  rewrite Hanswer in Hrun. cbn [fst snd] in Hrun. rewrite Hrun.
  destruct (choices response) as [|choice rest]; split; intros H.
  - by destruct H.
  - reflexivity.
  - by eexists.
  - discriminate H.
Qed.

(** ** Frame properties *)

Lemma transcribe_fs_globals audio_filepath prompt w :
  fs (snd (transcribe audio_filepath prompt w)) = fs w
  /\ globals (snd (transcribe audio_filepath prompt w)) = globals w.
Proof.
  destruct (can_read (fs w) audio_filepath) eqn:Hr.
  - rewrite_run (transcribe_readable _ prompt _ Hr). by split.
  - destruct (transcribe_unreadable _ prompt _ Hr) as (e & _ & Hrun).
    rewrite Hrun. by split.
Qed.

Lemma run_call_fs_globals (c : Call) w :
  fs (snd (run_call c w)) = fs w
  /\ globals (snd (run_call c w)) = globals w.
Proof.
  destruct c as [audio_filepath prompt|instruction]; cbn [run_call].
  - apply transcribe_fs_globals.
  - rewrite_run (fictitious_run instruction w). by split.
Qed.

Lemma run_calls_fs_globals (cs : list Call) w :
  fs (run_calls cs w) = fs w /\ globals (run_calls cs w) = globals w.
Proof.
  revert w. induction cs as [|c cs IH]; intros w; cbn [run_calls].
  - by split.
  - destruct (IH (snd (run_call c w))) as [Hfs Hg].
    destruct (run_call_fs_globals c w) as [Hfs1 Hg1].
    split; congruence.
Qed.

(** The requests of one call are a function of its arguments and of
    whether the audio file can be read. *)
Lemma run_call_new_calls (c : Call) w :
  new_calls (run_call c) w
  = match c with
    | CallTranscribe audio_filepath prompt =>
        if can_read (fs w) audio_filepath
        then [TranscriptionsCreate
                [("file", PyFile (mkFile audio_filepath "rb"));
                 ("model", PyStr "whisper-1");
                 ("prompt", PyStr prompt)]]
        else []
    | CallFictitious instruction =>
        [ChatCompletionsCreate
           [("model", PyStr "gpt-4o-mini");
            ("temperature", PyInt 0);
            ("messages",
             PyList
               [PyDict [("role", PyStr "system");
                        ("content", PyStr system_content)];
                PyDict [("role", PyStr "user");
                        ("content", PyStr instruction)]])]]
    end.
Proof.
  destruct c as [audio_filepath prompt|instruction]; cbn [run_call];
    apply new_calls_app.
  - apply transcribe_calls.
  - rewrite_run (fictitious_run instruction w). reflexivity.
Qed.


(** C9. Neither function keeps history: the request a call builds is
    fixed by the call's own arguments.  It is the same after any sequence
    of earlier calls and under any binding of the notebook's globals, and
    the globals are as they were after any sequence of calls. *)
Theorem calls_keep_no_history (c : Call) :
  exists request : Request,
    forall (cs : list Call) w,
      new_calls (run_call c) (run_calls cs w) = new_calls (run_call c) w
      /\ (new_calls (run_call c) w = [request]
          \/ new_calls (run_call c) w = [])
      /\ globals (run_calls cs w) = globals w
      /\ forall g : gmap string pyval,
          new_calls (run_call c) (with_globals g w)
          = new_calls (run_call c) w.
Proof.
  exists (match c with
          | CallTranscribe audio_filepath prompt =>
              TranscriptionsCreate
                [("file", PyFile (mkFile audio_filepath "rb"));
                 ("model", PyStr "whisper-1");
                 ("prompt", PyStr prompt)]
          | CallFictitious instruction =>
              ChatCompletionsCreate
                [("model", PyStr "gpt-4o-mini");
                 ("temperature", PyInt 0);
                 ("messages",
                  PyList
                    [PyDict [("role", PyStr "system");
                             ("content", PyStr system_content)];
                     PyDict [("role", PyStr "user");
                             ("content", PyStr instruction)]])]
          end).
  intros cs w. destruct (run_calls_fs_globals cs w) as [Hfs Hg].
  repeat split.
  - rewrite !run_call_new_calls, Hfs. reflexivity.
  - rewrite run_call_new_calls. destruct c as [audio_filepath prompt|instruction].
    + destruct (can_read (fs w) audio_filepath); [by left|by right].
    + by left.
  - exact Hg.
  - intros g. rewrite !run_call_new_calls. reflexivity.
Qed.

(** ** Further properties of the two functions and of runs of calls *)

(** The error of a failed [open(path, "rb")], by the kind of the entry. *)
Lemma py_open_rb_error audio_filepath w :
  can_read (fs w) audio_filepath = false ->
  py_open audio_filepath "rb" w
  = (Raised (match fs w !! audio_filepath with
             | None => FileNotFoundError audio_filepath
             | Some Directory => IsADirectoryError audio_filepath
             | Some (RegularFile _ _ _) => PermissionError audio_filepath
             end), w).
Proof.
  unfold can_read, py_open. cbn.
  destruct (fs w !! audio_filepath) as [[[] ? ?|]|]; intros H;
    first [discriminate H | reflexivity].
Qed.

Lemma transcribe_open_error audio_filepath prompt w (e : exn) :
  py_open audio_filepath "rb" w = (Raised e, w) ->
  transcribe audio_filepath prompt w = (Raised e, w).
Proof.
  intros Hopen. unfold transcribe, mbind, M_bind, bind. by rewrite Hopen.
Qed.

(** X1. When the generation step of the two-step cell raises, for whatever
    reason, the cell raises that error with the world the generation step
    left: the chat request is the only request made, and no file is
    opened. *)
Theorem generation_failure_stops_two_step_cell
    instruction audio_filepath w (e : exn) :
  fst (fictitious_prompt_from_instruction instruction w) = Raised e ->
  generate_then_transcribe instruction audio_filepath w
  = (Raised e, snd (fictitious_prompt_from_instruction instruction w))
  /\ open_files (snd (generate_then_transcribe instruction audio_filepath w))
     = open_files w
  /\ new_calls (generate_then_transcribe instruction audio_filepath) w
     = [ChatCompletionsCreate
          [("model", PyStr "gpt-4o-mini");
           ("temperature", PyInt 0);
           ("messages",
            PyList
              [PyDict [("role", PyStr "system");
                       ("content", PyStr system_content)];
               PyDict [("role", PyStr "user");
                       ("content", PyStr instruction)]])]].
Proof.
  intros Hraise.
  assert (Hcell : generate_then_transcribe instruction audio_filepath w
                  = (Raised e,
                     snd (fictitious_prompt_from_instruction instruction w))).
  { unfold generate_then_transcribe.
    unfold mbind at 1. unfold M_bind at 1. unfold bind at 1.
    destruct (fictitious_prompt_from_instruction instruction w)
      as [[v|e'] w1]; cbn in Hraise |- *; congruence. }
  split; [exact Hcell|]. split.
  - rewrite Hcell. rewrite_run (fictitious_run instruction w). reflexivity.
  - apply new_calls_app. rewrite Hcell.
    rewrite_run (fictitious_run instruction w). reflexivity.
Qed.

(** X2. When [open] fails on the audio path, [transcribe] raises the
    error of [open], for every prompt and every service, and the world is
    as it was before the call: no request is made and the service is not
    contacted. *)
Theorem transcribe_unopenable_path audio_filepath prompt w (e : exn) :
  fst (py_open audio_filepath "rb" w) = Raised e ->
  transcribe audio_filepath prompt w = (Raised e, w).
Proof.
  intros Hopen. apply transcribe_open_error.
  destruct (can_read (fs w) audio_filepath) eqn:Hr.
  - rewrite (py_open_rb_readable _ _ Hr) in Hopen. discriminate Hopen.
  - destruct (py_open_rb_unreadable _ _ Hr) as [e' He'].
    rewrite He' in Hopen. cbn in Hopen. congruence.
Qed.

(** X3. What a call returns, what it sends and the state it leaves the
    service in depend on the files on disk and on the state of the
    service only: the request log, the table of open files and the
    globals have no influence. *)
Theorem call_result_ignores_local_state (c : Call) (w1 w2 : World S) :
  fs w1 = fs w2 ->
  ext w1 = ext w2 ->
  fst (run_call c w1) = fst (run_call c w2)
  /\ ext (snd (run_call c w1)) = ext (snd (run_call c w2))
  /\ new_calls (run_call c) w1 = new_calls (run_call c) w2.
Proof.
  intros Hfs Hext. rewrite !run_call_new_calls, Hfs.
  destruct c as [audio_filepath prompt|instruction]; cbn [run_call].
  - destruct (can_read (fs w2) audio_filepath) eqn:Hr.
    + assert (Hr1 : can_read (fs w1) audio_filepath = true) by by rewrite Hfs.
      rewrite_run (transcribe_readable _ prompt _ Hr).
      rewrite_run (transcribe_readable _ prompt _ Hr1).
      cbn [fst snd ext]. by rewrite Hfs, Hext.
    + assert (Hr1 : can_read (fs w1) audio_filepath = false) by by rewrite Hfs.
      rewrite (transcribe_open_error _ prompt _ _ (py_open_rb_error _ _ Hr)).
      rewrite (transcribe_open_error _ prompt _ _ (py_open_rb_error _ _ Hr1)).
      cbn [fst snd]. by rewrite Hfs, Hext.
  - rewrite_run (fictitious_run instruction w1).
    rewrite_run (fictitious_run instruction w2).
    cbn [fst snd ext]. by rewrite Hext.
Qed.

(** The log after one call: the old log, then the requests of the call. *)
Lemma run_call_calls (c : Call) w :
  calls (snd (run_call c w)) = calls w ++ new_calls (run_call c) w.
Proof.
  rewrite run_call_new_calls.
  destruct c as [audio_filepath prompt|instruction]; cbn [run_call].
  - apply transcribe_calls.
  - rewrite_run (fictitious_run instruction w). reflexivity.
Qed.

Lemma run_call_new_calls_fs (c : Call) (w1 w2 : World S) :
  fs w1 = fs w2 -> new_calls (run_call c) w1 = new_calls (run_call c) w2.
Proof. intros Hfs. by rewrite !run_call_new_calls, Hfs. Qed.

(** X4. After any sequence of calls the request log is the old log
    followed, in call order, by the requests each call would have made on
    its own in the starting world: no request is repeated, dropped or
    reordered, and a sequence of [n] calls makes at most [n] requests. *)
Theorem run_requests_in_call_order (cs : list Call) w :
  calls (run_calls cs w)
  = calls w ++ concat (map (fun c => new_calls (run_call c) w) cs)
  /\ length (calls (run_calls cs w)) <= length (calls w) + length cs.
Proof.
  revert w. induction cs as [|c cs IH]; intros w; cbn [run_calls map concat].
  - rewrite app_nil_r. cbn. split; [reflexivity|lia].
  - destruct (IH (snd (run_call c w))) as [Hlog Hlen].
    destruct (run_call_fs_globals c w) as [Hfs _].
    assert (Hone : length (new_calls (run_call c) w) <= 1).
    { rewrite run_call_new_calls. destruct c as [audio_filepath prompt|?].
      - destruct (can_read (fs w) audio_filepath); cbn; lia.
      - cbn; lia. }
    split.
    + rewrite Hlog, run_call_calls, <- app_assoc. do 3 f_equal.
      apply map_ext. intros c'. by apply run_call_new_calls_fs.
    + rewrite run_call_calls, length_app in Hlen. cbn [length]. lia.
Qed.

(** X6. No sequence of calls changes the files on disk, so whether, and
    with which error, [open] fails on a path is the same after any run
    as before it. *)
Theorem run_never_writes_disk (cs : list Call) w audio_filepath :
  fs (run_calls cs w) = fs w
  /\ fst (py_open audio_filepath "rb" (run_calls cs w))
     = fst (py_open audio_filepath "rb" w).
Proof.
  destruct (run_calls_fs_globals cs w) as [Hfs _]. split; [exact Hfs|].
  destruct (can_read (fs w) audio_filepath) eqn:Hr.
  - rewrite !py_open_rb_readable; [reflexivity|exact Hr|by rewrite Hfs].
  - rewrite !py_open_rb_error; [by rewrite Hfs|exact Hr|by rewrite Hfs].
Qed.

(** X7. [fictitious_prompt_from_instruction] has no local effect: disk,
    open files and globals are as before, whether it returns or raises;
    and its one request has been made by the time it raises
    [IndexError] on a completion without choices. *)
Theorem fictitious_prompt_frame instruction w :
  fs (snd (fictitious_prompt_from_instruction instruction w)) = fs w
  /\ open_files (snd (fictitious_prompt_from_instruction instruction w))
     = open_files w
  /\ globals (snd (fictitious_prompt_from_instruction instruction w))
     = globals w
  /\ length (calls (snd (fictitious_prompt_from_instruction instruction w)))
     = Datatypes.S (length (calls w)).
Proof.
  rewrite_run (fictitious_run instruction w). cbn [fs open_files globals calls snd].
  repeat split. rewrite length_app. cbn. lia.
Qed.

(** ** The cells *)

Lemma download_names_lookup (g : gmap string pyval) :
  download_names g !! "up_first_remote_filepath"
  = Some (PyStr "https://cdn.openai.com/API/examples/data/upfirstpodcastchunkthree.wav")
  /\ download_names g !! "bbq_plans_remote_filepath"
     = Some (PyStr "https://cdn.openai.com/API/examples/data/bbq_plans.wav")
  /\ download_names g !! "product_names_remote_filepath"
     = Some (PyStr "https://cdn.openai.com/API/examples/data/product_names.wav")
  /\ download_names g !! "up_first_filepath"
     = Some (PyStr "data/upfirstpodcastchunkthree.wav")
  /\ download_names g !! "bbq_plans_filepath" = Some (PyStr "data/bbq_plans.wav")
  /\ download_names g !! "product_names_filepath"
     = Some (PyStr "data/product_names.wav").
Proof. unfold download_names. repeat split; by simplify_map_eq. Qed.

(** The download cell, its assignments done and its names resolved: the
    three downloads in order, each run in the world the one before left,
    as long as a download that returns leaves the globals alone. *)
Lemma cell_download_run w :
  (forall (url filename : string) (w1 w2 : World S) v,
      urlretrieve (PyStr url) (PyStr filename) w1 = (Returned v, w2) ->
      globals w2 = globals w1) ->
  cell_download w
  = match urlretrieve
            (PyStr "https://cdn.openai.com/API/examples/data/upfirstpodcastchunkthree.wav")
            (PyStr "data/upfirstpodcastchunkthree.wav")
            (with_globals (download_names (globals w)) w) with
    | (Raised e, w1) => (Raised e, w1)
    | (Returned _, w1) =>
        match urlretrieve
                (PyStr "https://cdn.openai.com/API/examples/data/bbq_plans.wav")
                (PyStr "data/bbq_plans.wav") w1 with
        | (Raised e, w2) => (Raised e, w2)
        | (Returned _, w2) =>
            urlretrieve
              (PyStr "https://cdn.openai.com/API/examples/data/product_names.wav")
              (PyStr "data/product_names.wav") w2
        end
    end.
Proof.
  intros Hglobals.
  destruct (download_names_lookup (globals w))
    as (Hu1 & Hu2 & Hu3 & Hp1 & Hp2 & Hp3).
  unfold cell_download, mbind, M_bind, bind, set_global, get_global.
  cbn [fst snd]. unfold with_globals. cbn [fs open_files globals calls ext].
  fold (download_names (globals w)).
  rewrite Hu1; cbv beta iota; cbn [globals]. rewrite Hp1; cbv beta iota.
  destruct (urlretrieve _ _ _) as [[v1|e1] w1] eqn:H1; [|reflexivity].
  pose proof (Hglobals _ _ _ _ _ H1) as Hg1. cbn [globals] in Hg1.
  rewrite Hg1, Hu2; cbv beta iota. rewrite Hg1, Hp2; cbv beta iota.
  destruct (urlretrieve _ _ w1) as [[v2|e2] w2] eqn:H2; [|reflexivity].
  pose proof (Hglobals _ _ _ _ _ H2) as Hg2. rewrite Hg1 in Hg2.
  rewrite Hg2, Hu3; cbv beta iota. rewrite Hg2, Hp3; cbv beta iota.
  by destruct (urlretrieve _ _ w2) as [[v3|e3] w3].
Qed.

(** X8. Setup, then use.  Suppose a download that returns has saved a
    readable file under its file name, has made no readable file
    unreadable, and has left the globals alone.  Then after a download
    cell that returned, every transcription cell on one of the three path
    variables finds its name bound and its file readable, and makes the
    transcription request on that file with the prompt of the cell. *)
Theorem download_then_transcribe
    w (v : string * list (string * string)) (w' : World S)
    (name path : string) prompt :
  (forall (url filename : string) (w1 w2 : World S) v1,
      urlretrieve (PyStr url) (PyStr filename) w1 = (Returned v1, w2) ->
      can_read (fs w2) filename = true
      /\ (forall p, can_read (fs w1) p = true -> can_read (fs w2) p = true)
      /\ globals w2 = globals w1) ->
  cell_download w = (Returned v, w') ->
  In (name, path)
     [("up_first_filepath", "data/upfirstpodcastchunkthree.wav");
      ("bbq_plans_filepath", "data/bbq_plans.wav");
      ("product_names_filepath", "data/product_names.wav")] ->
  new_calls (cell_transcribe name prompt) w'
  = [TranscriptionsCreate
       [("file", PyFile (mkFile path "rb"));
        ("model", PyStr "whisper-1");
        ("prompt", PyStr prompt)]].
Proof.
  intros Hlib Hcell Hname.
  rewrite cell_download_run in Hcell
    by (intros url filename w1 w2 v1 H1; by apply (Hlib _ _ _ _ _ H1)).
  destruct (urlretrieve _ _ _) as [[v1|e1] w1] eqn:H1; [|discriminate Hcell].
  destruct (urlretrieve _ _ w1) as [[v2|e2] w2] eqn:H2; [|discriminate Hcell].
  destruct (Hlib _ _ _ _ _ H1) as (Hr1 & _ & Hg1).
  destruct (Hlib _ _ _ _ _ H2) as (Hr2 & Hkeep2 & Hg2).
  destruct (Hlib _ _ _ _ _ Hcell) as (Hr3 & Hkeep3 & Hg3).
  assert (Hnames : globals w' = download_names (globals w))
    by (rewrite Hg3, Hg2, Hg1; reflexivity).
  destruct (download_names_lookup (globals w))
    as (_ & _ & _ & Hp1 & Hp2 & Hp3).
  assert (Hready : globals w' !! name = Some (PyStr path)
                   /\ can_read (fs w') path = true).
  { rewrite Hnames. cbn [In] in Hname.
    destruct Hname as [Heq|[Heq|[Heq|[]]]]; inversion Heq; subst name path;
      (split; [assumption|]); auto. }
  destruct Hready as [Hbound Hreadable].
  assert (Hsame : cell_transcribe name prompt w' = transcribe path prompt w').
  { unfold cell_transcribe, get_global.
    unfold mbind at 1. unfold M_bind at 1. unfold bind at 1.
    by rewrite Hbound. }
  apply new_calls_app. rewrite Hsame, transcribe_calls, Hreadable.
  reflexivity.
Qed.

(** X9. When the first download raises, the download cell raises that
    error and ends in the world the failed download left: the second and
    third downloads are not run.  The six names are assigned before the
    first download starts. *)
Theorem download_cell_stops_at_first_failure w (e : exn) (w1 : World S) :
  urlretrieve
    (PyStr "https://cdn.openai.com/API/examples/data/upfirstpodcastchunkthree.wav")
    (PyStr "data/upfirstpodcastchunkthree.wav")
    (with_globals (download_names (globals w)) w) = (Raised e, w1) ->
  cell_download w = (Raised e, w1).
Proof.
  intros Hfirst.
  destruct (download_names_lookup (globals w)) as (Hu1 & _ & _ & Hp1 & _).
  unfold cell_download, mbind, M_bind, bind, set_global, get_global.
  cbn [fst snd]. unfold with_globals in *.
  cbn [fs open_files globals calls ext]. fold (download_names (globals w)).
  rewrite Hu1; cbv beta iota; cbn [globals]. rewrite Hp1; cbv beta iota.
  by rewrite Hfirst.
Qed.

(** X10. Only the download cell binds the path variables: as long as a
    name is unbound, and after any sequence of calls of the two
    functions, a transcription cell on that name raises [NameError] for
    it and does nothing else: no file is opened and no request made. *)
Theorem transcription_cell_needs_download_cell
    (cs : list Call) w (name : string) prompt :
  globals w !! name = None ->
  cell_transcribe name prompt (run_calls cs w)
  = (Raised (NameError name), run_calls cs w).
Proof.
  intros Hunbound. destruct (run_calls_fs_globals cs w) as [_ Hg].
  unfold cell_transcribe, get_global.
  unfold mbind at 1. unfold M_bind at 1. unfold bind at 1.
  by rewrite Hg, Hunbound.
Qed.


End Whisper.

(** * The functions on concrete inputs *)

Example transcribe_missing_file :
  transcribe Demo.transcriptions "data/bbq_plans.wav" "" Demo.w0
  = (Raised (FileNotFoundError "data/bbq_plans.wav"), Demo.w0).
Proof. reflexivity. Qed.

Example transcribe_first_cell :
  new_calls (transcribe Demo.transcriptions Demo.up_first_filepath "") Demo.w0
  = [TranscriptionsCreate
       [("file", PyFile (mkFile Demo.up_first_filepath "rb"));
        ("model", PyStr "whisper-1");
        ("prompt", PyStr "")]].
Proof. reflexivity. Qed.

(** Opening for writing does change the disk; [transcribe] opens for
    reading. *)
Example open_for_writing_truncates :
  fs (snd (py_open Demo.up_first_filepath "wb" Demo.w0))
  = {[ Demo.up_first_filepath := RegularFile true true [] ]}.
Proof. vm_compute. reflexivity. Qed.

Example fictitious_prompt_service_unreachable :
  fst (fictitious_prompt_from_instruction Demo.chat_unreachable
         "Write in a deep, heavy, Southern accent." Demo.w0)
  = Raised (Exn "APIConnectionError" "Connection error.").
Proof. reflexivity. Qed.

(** The file object stays in the table of open files on the error path
    as well. *)
Example transcribe_service_unreachable :
  fst (transcribe Demo.transcriptions_unreachable Demo.up_first_filepath ""
         Demo.w0)
  = Raised (Exn "APIConnectionError" "Connection error.")
  /\ open_files (snd (transcribe Demo.transcriptions_unreachable
                        Demo.up_first_filepath "" Demo.w0))
     = [mkFile Demo.up_first_filepath "rb"].
Proof. split; reflexivity. Qed.

Example getitem_last : forall w : World nat,
  py_getitem [10; 20; 30]%Z (-1) w = (Returned 30%Z, w).
Proof. reflexivity. Qed.

(** [transcribe] on the notebook's first audio file returns the text the
    service answered. *)
Lemma transcribe_returns_response_text_witness :
  can_read (fs Demo.w0) Demo.up_first_filepath = true
  /\ fst (transcribe Demo.transcriptions Demo.up_first_filepath
            "president biden." Demo.w0)
     = Returned "Hi there and welcome to the show.".
Proof.
  split; [reflexivity|].
  apply (transcribe_returns_response_text Demo.transcriptions
           Demo.up_first_filepath "president biden." Demo.w0
           (mkTranscription "Hi there and welcome to the show." "english") 1).
  - reflexivity.
  - reflexivity.
Defined.

(** The generated paragraph comes back as it is and is the prompt of the
    transcription request that follows. *)
Lemma fictitious_prompt_returns_first_choice_content_witness :
  fst (fictitious_prompt_from_instruction Demo.chat_one_choice
         "Write in a deep, heavy, Southern accent." Demo.w0)
  = Returned "Remember that trip to Maine..."
  /\ map (fun r => kwarg "prompt" (request_kwargs r))
       (new_calls
          (generate_then_transcribe Demo.transcriptions Demo.chat_one_choice
             "Write in a deep, heavy, Southern accent."
             Demo.up_first_filepath) Demo.w0)
     = [None; Some (PyStr "Remember that trip to Maine...")].
Proof.
  destruct (fictitious_prompt_returns_first_choice_content
              Demo.transcriptions Demo.chat_one_choice
              "Write in a deep, heavy, Southern accent." Demo.w0
              (mkCompletion "chatcmpl-1"
                 [mkChoice 0
                    (mkMessage "assistant" "Remember that trip to Maine...")
                    "stop"])
              (mkChoice 0
                 (mkMessage "assistant" "Remember that trip to Maine...")
                 "stop")
              [] 1 eq_refl eq_refl) as [Hreturn Hrequests].
  split; [exact Hreturn|].
  rewrite (Hrequests Demo.up_first_filepath).
  reflexivity.
Defined.

(** One completion with a choice, one without. *)
Lemma first_choice_indexing_unguarded_witness :
  (exists fictitious_prompt,
      fst (fictitious_prompt_from_instruction Demo.chat_one_choice
             "Instead of periods, end every sentence with elipses." Demo.w0)
      = Returned fictitious_prompt)
  /\ fst (fictitious_prompt_from_instruction Demo.chat_no_choices
            "Instead of periods, end every sentence with elipses." Demo.w0)
     = Raised IndexError.
Proof.
  split.
  - apply (first_choice_indexing_unguarded Demo.chat_one_choice
             "Instead of periods, end every sentence with elipses." Demo.w0
             _ 1 eq_refl).
    discriminate.
  - apply (first_choice_indexing_unguarded Demo.chat_no_choices
             "Instead of periods, end every sentence with elipses." Demo.w0
             _ 1 eq_refl).
    reflexivity.
Defined.

(** C5 as stated fails: with a service that answers every chat request
    with a completion without choices, the client call does not raise and
    [fictitious_prompt_from_instruction] raises all the same. *)
Lemma fictitious_prompt_raises_without_underlying_error :
  ~ (is_Some (raised (fst (fictitious_prompt_from_instruction
                             Demo.chat_no_choices
                             "Write in a deep, heavy, Southern accent."
                             Demo.w0)))
     <-> is_Some (raised (fst (client_chat_completions_create
                                 Demo.chat_no_choices
                                 [("model", PyStr "gpt-4o-mini");
                                  ("temperature", PyInt 0);
                                  ("messages",
                                   PyList
                                     [PyDict [("role", PyStr "system");
                                              ("content", PyStr system_content)];
                                      PyDict [("role", PyStr "user");
                                              ("content", PyStr "Write in a deep, heavy, Southern accent.")]])]
                                 Demo.w0)))).
Proof.
  intros [Hraises _].
  assert (Hfunction : is_Some (raised (fst (fictitious_prompt_from_instruction
                                              Demo.chat_no_choices
                                              "Write in a deep, heavy, Southern accent."
                                              Demo.w0))))
    by (exists IndexError; reflexivity).
  destruct (Hraises Hfunction) as [e He]. discriminate He.
Qed.


(** ** Further properties on concrete inputs *)

(** A completion without choices stops the two-step cell before the
    audio file is opened. *)
Lemma generation_failure_stops_two_step_cell_witness :
  generate_then_transcribe Demo.transcriptions Demo.chat_no_choices
    "Write in a deep, heavy, Southern accent." Demo.up_first_filepath Demo.w0
  = (Raised IndexError,
     snd (fictitious_prompt_from_instruction Demo.chat_no_choices
            "Write in a deep, heavy, Southern accent." Demo.w0))
  /\ open_files
       (snd (generate_then_transcribe Demo.transcriptions Demo.chat_no_choices
               "Write in a deep, heavy, Southern accent."
               Demo.up_first_filepath Demo.w0))
     = [].
Proof.
  destruct (generation_failure_stops_two_step_cell
              Demo.transcriptions Demo.chat_no_choices
              "Write in a deep, heavy, Southern accent."
              Demo.up_first_filepath Demo.w0 IndexError eq_refl)
    as (Hcell & Hopen & _).
  split; [exact Hcell|exact Hopen].
Defined.

Lemma transcribe_unopenable_path_witness :
  fst (py_open "data/bbq_plans.wav" "rb" Demo.w0)
  = Raised (FileNotFoundError "data/bbq_plans.wav")
  /\ transcribe Demo.transcriptions "data/bbq_plans.wav"
       "Friends: Aimee, Shawn" Demo.w0
     = (Raised (FileNotFoundError "data/bbq_plans.wav"), Demo.w0).
Proof.
  split; [reflexivity|].
  exact (transcribe_unopenable_path Demo.transcriptions "data/bbq_plans.wav"
           "Friends: Aimee, Shawn" Demo.w0
           (FileNotFoundError "data/bbq_plans.wav") eq_refl).
Defined.

(** The same call in a used notebook and in a fresh one. *)
Lemma call_result_ignores_local_state_witness :
  fst (run_call Demo.transcriptions Demo.chat_one_choice
         (CallTranscribe Demo.up_first_filepath "president biden.")
         Demo.w0_used)
  = fst (run_call Demo.transcriptions Demo.chat_one_choice
           (CallTranscribe Demo.up_first_filepath "president biden.")
           Demo.w0).
Proof.
  exact (proj1 (call_result_ignores_local_state
                  Demo.transcriptions Demo.chat_one_choice
                  (CallTranscribe Demo.up_first_filepath "president biden.")
                  Demo.w0_used Demo.w0 eq_refl eq_refl)).
Defined.

(** The stand-in for the library keeps the contract asked of it. *)
Lemma demo_urlretrieve_saves
    (url filename : string) (w1 w2 : World nat)
    (v1 : string * list (string * string)) :
  Demo.urlretrieve (PyStr url) (PyStr filename) w1 = (Returned v1, w2) ->
  can_read (fs w2) filename = true
  /\ (forall p, can_read (fs w1) p = true -> can_read (fs w2) p = true)
  /\ globals w2 = globals w1.
Proof.
  unfold Demo.urlretrieve.
  destruct (Demo.web !! url) as [body|]; [|discriminate].
  assert (Hsaved : forall p,
             can_read (<[filename := RegularFile true true body]> (fs w1)) p
             = if decide (filename = p) then true else can_read (fs w1) p).
  { intros p. unfold can_read. rewrite lookup_insert.
    by destruct (decide (filename = p)). }
  destruct (fs w1 !! filename) as [[[] [] data|]|] eqn:Hentry;
    intros H; inversion H; subst; clear H; cbn [fs globals].
  all: repeat split; try reflexivity.
  all: try (rewrite Hsaved; by rewrite decide_True).
  all: intros p Hp; rewrite Hsaved; by destruct (decide (filename = p)).
Qed.

Lemma download_then_transcribe_witness :
  new_calls
    (cell_transcribe Demo.transcriptions "bbq_plans_filepath"
       "Friends: Aimee, Shawn")
    (snd (cell_download Demo.urlretrieve Demo.fresh))
  = [TranscriptionsCreate
       [("file", PyFile (mkFile "data/bbq_plans.wav" "rb"));
        ("model", PyStr "whisper-1");
        ("prompt", PyStr "Friends: Aimee, Shawn")]].
Proof.
  apply (download_then_transcribe Demo.transcriptions Demo.urlretrieve
           Demo.fresh ("data/product_names.wav", [])
           (snd (cell_download Demo.urlretrieve Demo.fresh))
           "bbq_plans_filepath" "data/bbq_plans.wav" "Friends: Aimee, Shawn").
  - exact demo_urlretrieve_saves.
  - vm_compute. reflexivity.
  - right. left. reflexivity.
Defined.

(** The first file name is taken by a directory: the cell stops there,
    and the two other files are not on disk. *)
Lemma download_cell_stops_at_first_failure_witness :
  cell_download Demo.urlretrieve Demo.blocked
  = (Raised (IsADirectoryError Demo.up_first_filepath),
     with_globals (download_names ∅) Demo.blocked)
  /\ fs (snd (cell_download Demo.urlretrieve Demo.blocked)) !! "data/bbq_plans.wav"
     = None.
Proof.
  pose proof (download_cell_stops_at_first_failure Demo.urlretrieve
                Demo.blocked (IsADirectoryError Demo.up_first_filepath)
                (with_globals (download_names ∅) Demo.blocked) eq_refl)
    as Hcell.
  split; [exact Hcell|]. rewrite Hcell. reflexivity.
Defined.

(** A transcription cell run before the download cell, after two calls. *)
Lemma transcription_cell_needs_download_cell_witness :
  fst (cell_transcribe Demo.transcriptions "up_first_filepath" ""
         (run_calls Demo.transcriptions Demo.chat_one_choice
            [CallFictitious "Write in a deep, heavy, Southern accent.";
             CallTranscribe Demo.up_first_filepath "president biden."]
            Demo.w0))
  = Raised (NameError "up_first_filepath").
Proof.
  rewrite (transcription_cell_needs_download_cell
             Demo.transcriptions Demo.chat_one_choice
             [CallFictitious "Write in a deep, heavy, Southern accent.";
              CallTranscribe Demo.up_first_filepath "president biden."]
             Demo.w0 "up_first_filepath" "" eq_refl).
  reflexivity.
Defined.

